(** * hello.py: the greeting script, embedded and specified

    The script defines one function, [main], and calls it under the
    usual [if __name__ == "__main__":] guard.  [main] prints the greeting
    inside [try ... except Exception as e], and the handler prints a
    diagnostic built from [e].

    The embedding is a state-and-exception monad over a [World] that
    holds the process's streams and the parts of the platform the script
    could reach (files, environment, network ports).  Whether a write to
    standard output succeeds is decided by the platform, so the world
    carries the outcome the platform gives each upcoming [print].

    Standard output is taken unbuffered (as under [python -u]): what a
    [print] writes reaches the platform during the call, and a failure
    of the platform is raised by that call.  A buffered stream, whose
    failures surface only when the interpreter flushes it at exit, is
    outside this development. *)

From Stdlib Require Import ZArith.
From stdpp Require Import base strings list gmap.

Local Open Scope Z_scope.

(* ===================================================================== *)
(** * The Python runtime, as far as the script uses it                    *)
(* ===================================================================== *)

Module Py.

(** The line terminator [print] appends (its default [end]). *)
Definition LF : string := String (Ascii.ascii_of_nat 10) EmptyString.

(** An exception instance: the names of the classes in the method
    resolution order of its type (most specific first), what [str(e)]
    yields, and, for a [SystemExit], the integer [code] it carries. *)
Record BaseException := mkExc {
  exc_mro  : list string;
  exc_str  : string;
  exc_code : Z
}.

(** [isinstance(e, cls)]: the class occurs in the MRO of the type of [e]. *)
Definition isinstance (e : BaseException) (cls : string) : bool :=
  bool_decide (cls ∈ exc_mro e).

(** [type(e).__name__]. *)
Definition type_name (e : BaseException) : string :=
  default "BaseException" (head (exc_mro e)).

(** Some built-in exceptions a stream write can raise. *)
Definition ValueError (msg : string) : BaseException :=
  mkExc ["ValueError"; "Exception"; "BaseException"; "object"] msg 0.

Definition OSError (msg : string) : BaseException :=
  mkExc ["OSError"; "Exception"; "BaseException"; "object"] msg 0.

Definition BrokenPipeError (msg : string) : BaseException :=
  mkExc ["BrokenPipeError"; "ConnectionError"; "OSError"; "Exception";
         "BaseException"; "object"] msg 0.

Definition KeyboardInterrupt : BaseException :=
  mkExc ["KeyboardInterrupt"; "BaseException"; "object"] "" 0.

Definition SystemExit (code : Z) : BaseException :=
  mkExc ["SystemExit"; "BaseException"; "object"] "" code.

Definition GeneratorExit : BaseException :=
  mkExc ["GeneratorExit"; "BaseException"; "object"] "" 0.

(** How the platform fails a [print]: the exception the call raises, and
    how many characters of the text had been delivered by then.  [print]
    writes its text and then the line terminator, so a call that raises
    may already have delivered a leading part of the text, or all of it
    when it is the write of the terminator that raises. *)
Record Fault := mkFault {
  fault_exc   : BaseException;
  fault_after : nat
}.

(** The part of [text] a failing [print] has delivered. *)
Definition sent (f : Fault) (text : string) : string :=
  String.substring 0 (fault_after f) text.

(** What an execution leaves in the log: a function of the script was
    entered, a [print] delivered its line to standard output, or a
    [print] of that line raised an exception.  The log is ghost state:
    the script cannot observe it. *)
Inductive Event :=
| EvCall (fn : string)
| EvWrite (text : string)
| EvWriteFailed (text : string) (e : BaseException).

(** The world a run acts on. *)
Record World := mkWorld {
  (** command-line arguments after the script name, [sys.argv[1:]] *)
  args : list string;
  (** text standard output has received *)
  stdout : string;
  (** what the platform answers to the upcoming [print]s to standard
      output, in order: [None] delivers the line, [Some f] fails the
      call as [f] says; once the list is used up every line is
      delivered *)
  stdout_faults : list (option Fault);
  (** text standard error has received *)
  stderr : string;
  (** files by path *)
  files : gmap string string;
  (** environment variables *)
  environ : gmap string string;
  (** data sent on network ports, by port number *)
  ports : gmap nat string;
  (** ghost log *)
  events : list Event
}.

(** The answer of the platform to the [n]-th upcoming [print]. *)
Definition write_fault (n : nat) (w : World) : option Fault :=
  default None (stdout_faults w !! n).

(** The exception, if any, the [n]-th upcoming [print] raises. *)
Definition write_outcome (n : nat) (w : World) : option BaseException :=
  fault_exc <$> write_fault n w.

(** The line is delivered: it joins standard output. *)
Definition deliver (text : string) (w : World) : World :=
  mkWorld (args w) (stdout w +:+ text) (tail (stdout_faults w)) (stderr w)
          (files w) (environ w) (ports w) (events w ++ [EvWrite text]).

(** The [print] of [text] raises [e]: standard output has received
    [part], what had been delivered before the failure. *)
Definition refuse (part text : string) (e : BaseException) (w : World)
    : World :=
  mkWorld (args w) (stdout w +:+ part) (tail (stdout_faults w)) (stderr w)
          (files w) (environ w) (ports w) (events w ++ [EvWriteFailed text e]).

Definition log (ev : Event) (w : World) : World :=
  mkWorld (args w) (stdout w) (stdout_faults w) (stderr w)
          (files w) (environ w) (ports w) (events w ++ [ev]).

Definition with_args (a : list string) (w : World) : World :=
  mkWorld a (stdout w) (stdout_faults w) (stderr w)
          (files w) (environ w) (ports w) (events w).

Definition write_stderr (text : string) (w : World) : World :=
  mkWorld (args w) (stdout w) (stdout_faults w) (stderr w +:+ text)
          (files w) (environ w) (ports w) (events w).

(** How a statement completes: normally with a value, or by raising. *)
Inductive Completion (A : Type) :=
| Normal (a : A)
| Raised (e : BaseException).
Arguments Normal {A} a.
Arguments Raised {A} e.

(** Python code: a world transformer that may raise. *)
Definition Code (A : Type) : Type := World -> Completion A * World.

Definition ret {A} (a : A) : Code A := fun w => (Normal a, w).

(** [try: body / except cls as e: handler e].  The handler runs only for
    an exception that is an instance of [cls]; any other one, and any
    exception the handler itself raises, goes on to the caller. *)
Definition try_except {A} (body : Code A) (cls : string)
    (handler : BaseException -> Code A) : Code A :=
  fun w =>
    match body w with
    | (Normal a, w') => (Normal a, w')
    | (Raised e, w') =>
        if isinstance e cls then handler e w' else (Raised e, w')
    end.

(** Calling a function of the script: the call is logged, then the body
    runs. *)
Definition call {A} (fn : string) (body : Code A) : Code A :=
  fun w => body (log (EvCall fn) w).

(** [print(s)]: [s] and then the line terminator are written to
    standard output.  Either both writes are accepted and the whole line
    is delivered, or the call raises; it has then delivered a leading
    part of [s] (possibly none, possibly all of it) and never the
    terminator. *)
Definition print (s : string) : Code unit :=
  fun w =>
    let line := s +:+ LF in
    match write_fault 0 w with
    | None => (Normal tt, deliver line w)
    | Some f => (Raised (fault_exc f), refuse (sent f s) line (fault_exc f) w)
    end.

(** The status with which the interpreter ends when [e] reaches the top
    level: a [SystemExit] gives its code (the platform keeps the low
    eight bits), a [KeyboardInterrupt] gives 130, anything else 1. *)
Definition exit_status_of (e : BaseException) : Z :=
  if isinstance e "SystemExit" then Z.land (exc_code e) 255
  else if isinstance e "KeyboardInterrupt" then 130
  else 1.

(** The interpreter's report of an exception that reached the top level,
    on standard error.  A [SystemExit] is not reported.  The text is an
    abridgement: the lines naming the frames, the report of an exception
    that was being handled when this one was raised, and the module
    prefix of a class that is not built in are left out.  Nothing below
    relies on the text of a report, only on its not being empty. *)
Definition traceback (e : BaseException) : string :=
  "Traceback (most recent call last):" +:+ LF +:+
  type_name e +:+
  (if String.eqb (exc_str e) "" then "" else ": " +:+ exc_str e) +:+ LF.

Definition report_unhandled (e : BaseException) (w : World) : World :=
  if isinstance e "SystemExit" then w else write_stderr (traceback e) w.

(** [python -u script.py]: the module body runs with [__name__] set to
    ["__main__"]; the exit status is 0 when it completes normally.
    Standard output being unbuffered, nothing is left to flush when the
    interpreter exits. *)
Definition python (module : string -> Code unit) (w : World) : Z * World :=
  match module "__main__" w with
  | (Normal _, w') => (0, w')
  | (Raised e, w') => (exit_status_of e, report_unhandled e w')
  end.

End Py.

Import Py.

Declare Scope py_scope.
Delimit Scope py_scope with py.
Notation "'try:' body 'except' cls 'as' e ':' handler" :=
  (try_except body cls (fun e => handler))
  (at level 10, e name, body at level 200, handler at level 200) : py_scope.

(* ===================================================================== *)
(** * hello.py                                                            *)
(* ===================================================================== *)

(** The f-string of the handler: the fixed text followed by [str(e)]. *)
Definition diagnostic (e : BaseException) : string :=
  "An unexpected error occurred while printing: " +:+ exc_str e.

(** The line the greeting makes on standard output. *)
Definition greeting_line : string := "Hello, World!" +:+ LF.

(** [def main()]. *)
Definition main : Code unit :=
  call "main"
    (try: print "Hello, World!"
     except "Exception" as e : print (diagnostic e))%py.

(** The module body: [main] is defined, and called when the module runs
    as the main program. *)
Definition hello (name : string) : Code unit :=
  if String.eqb name "__main__" then main else ret tt.

(** [python hello.py ...] *)
Definition run_hello : World -> Z * World := python hello.

(** [import hello] *)
Definition import_hello : Code unit := hello "hello".

(* ===================================================================== *)
(** * Effect discipline                                                   *)
(* ===================================================================== *)

(** Everything in the world that is not the standard-output stream (and
    not the ghost log). *)
Definition outside_stdout (w : World) :=
  (args w, stderr w, files w, environ w, ports w).

(** The standard-output stream: its text and what it will answer. *)
Definition stdout_stream (w : World) := (stdout w, stdout_faults w).

(** Code that writes nothing but standard output. *)
Definition writes_only_stdout {A} (m : Code A) : Prop :=
  ∀ w, outside_stdout (m w).2 = outside_stdout w.

(** Code that reads nothing but standard output: its completion and what
    it does to the stream are the same in any two worlds whose streams
    agree. *)
Definition reads_only_stdout {A} (m : Code A) : Prop :=
  ∀ w1 w2, stdout_stream w1 = stdout_stream w2 →
    (m w1).1 = (m w2).1 ∧ stdout_stream (m w1).2 = stdout_stream (m w2).2.

Definition confined {A} (m : Code A) : Prop :=
  writes_only_stdout m ∧ reads_only_stdout m.

(* ===================================================================== *)
(** * Sample worlds                                                       *)
(* ===================================================================== *)

(** A fresh process on a healthy platform. *)
Definition quiet : World := mkWorld [] "" [] "" ∅ ∅ ∅ [].

(** The same platform with files, environment and arguments in it. *)
Definition busy : World :=
  mkWorld ["--verbose"; "out.txt"] "" [] ""
          {["/etc/motd" := "welcome"]} {["HOME" := "/root"]} {[80%nat := "GET /"]} [].

Definition enospc : BaseException :=
  OSError "[Errno 28] No space left on device".

(** Standard output goes to a full device: each of the two lines the
    script can print is refused, and nothing of them is delivered. *)
Definition disk_full : World :=
  mkWorld [] "" [Some (mkFault enospc 0); Some (mkFault enospc 0)] ""
          ∅ ∅ ∅ [].

Definition epipe : BaseException := BrokenPipeError "[Errno 32] Broken pipe".

(** One line is refused whole, the next one is delivered. *)
Definition one_refusal : World :=
  mkWorld [] "" [Some (mkFault epipe 0); None] "" ∅ ∅ ∅ [].

Definition closed_file : BaseException :=
  ValueError "I/O operation on closed file.".

(** [sys.stdout] has been closed. *)
Definition closed_stdout : World :=
  mkWorld [] "" [Some (mkFault closed_file 0); Some (mkFault closed_file 0)] ""
          ∅ ∅ ∅ [].

(** The user interrupts the process during the first write. *)
Definition interrupted : World :=
  mkWorld [] "" [Some (mkFault KeyboardInterrupt 0)] "" ∅ ∅ ∅ [].

(** A replaced [sys.stdout] whose [write] calls [sys.exit(3)]. *)
Definition exiting : World :=
  mkWorld [] "" [Some (mkFault (SystemExit 3) 0)] "" ∅ ∅ ∅ [].

Definition efbig : BaseException := OSError "[Errno 27] File too large".

(** Standard output goes to a file that may grow by thirteen bytes only:
    the text of the greeting is delivered, the write of its terminator
    raises, and so does the handler's [print], which delivers nothing. *)
Definition file_limit : World :=
  mkWorld [] "" [Some (mkFault efbig 13); Some (mkFault efbig 0)] ""
          ∅ ∅ ∅ [].

(** The write of the greeting's terminator raises, after which the
    stream works again. *)
Definition terminator_lost : World :=
  mkWorld [] "" [Some (mkFault epipe 13); None] "" ∅ ∅ ∅ [].


(* ===================================================================== *)
(** * Measures on a run                                                   *)
(* ===================================================================== *)

(** What a run from [w] to [w'] added to the log. *)
Definition new_events (w w' : World) : list Event :=
  drop (length (events w)) (events w').

(** A write to standard output was attempted (accepted or refused). *)
Definition is_write (ev : Event) : bool :=
  match ev with
  | EvCall _ => false
  | EvWrite _ | EvWriteFailed _ _ => true
  end.

Definition is_call (fn : string) (ev : Event) : bool :=
  match ev with
  | EvCall g => String.eqb fn g
  | _ => false
  end.

(** How many writes a piece of log attempts, and how often it enters
    [fn]. *)
Definition attempts (evs : list Event) : nat := length (filter is_write evs).

Definition calls_of (fn : string) (evs : list Event) : nat :=
  length (filter (is_call fn) evs).

(** The first write will raise something [except Exception] catches. *)
Definition handler_runs (w : World) : bool :=
  match write_outcome 0 w with
  | Some e => isinstance e "Exception"
  | None => false
  end.

(* ===================================================================== *)
(** * The runtime: basic facts                                            *)
(* ===================================================================== *)

Section Runtime.

Implicit Types (w : World) (e : BaseException) (s text : string).

Lemma write_outcome_log n ev w :
  write_outcome n (log ev w) = write_outcome n w.
Proof. reflexivity. Qed.

(** After a failed [print], the next answer of the platform moves up. *)
Lemma write_fault_refuse n part text e w :
  write_fault n (refuse part text e w) = write_fault (S n) w.
Proof.
  unfold write_fault; simpl.
  by destruct (stdout_faults w) as [|o l].
Qed.

Lemma write_fault_stream n w1 w2 :
  stdout_stream w1 = stdout_stream w2 →
  write_fault n w1 = write_fault n w2.
Proof.
  unfold stdout_stream, write_fault. intros [= _ ->]. done.
Qed.

(** The exception a [print] raises is the one its fault carries. *)
Lemma write_outcome_fault n w f :
  write_fault n w = Some f → write_outcome n w = Some (fault_exc f).
Proof. intros H. unfold write_outcome. by rewrite H. Qed.

Lemma write_outcome_None n w :
  write_outcome n w = None ↔ write_fault n w = None.
Proof. unfold write_outcome. by destruct (write_fault n w). Qed.

Lemma print_accepted s w :
  write_outcome 0 w = None →
  print s w = (Normal tt, deliver (s +:+ LF) w).
Proof. intros H%write_outcome_None. unfold print. by rewrite H. Qed.

Lemma print_failed s w f :
  write_fault 0 w = Some f →
  print s w = (Raised (fault_exc f),
               refuse (sent f s) (s +:+ LF) (fault_exc f) w).
Proof. intros H. unfold print. by rewrite H. Qed.

(** The built-in classes fall on the expected side of
    [except Exception]. *)
Lemma builtin_classes :
  isinstance (OSError "") "Exception" = true ∧
  isinstance (ValueError "") "Exception" = true ∧
  isinstance (BrokenPipeError "") "Exception" = true ∧
  isinstance KeyboardInterrupt "Exception" = false ∧
  (∀ c, isinstance (SystemExit c) "Exception" = false) ∧
  isinstance GeneratorExit "Exception" = false.
Proof. repeat split; intros; by vm_compute. Qed.

(** An exception that reaches the top level ends the process with a
    non-zero status unless it is a [SystemExit] whose code is a multiple
    of 256. *)
Lemma exit_status_of_nonzero e :
  isinstance e "SystemExit" = false → exit_status_of e ≠ 0.
Proof.
  intros H. unfold exit_status_of. rewrite H.
  by destruct (isinstance e "KeyboardInterrupt").
Qed.

(** Only a report changes standard error. *)
Lemma report_unhandled_outside e w :
  args (report_unhandled e w) = args w ∧
  stdout (report_unhandled e w) = stdout w ∧
  files (report_unhandled e w) = files w ∧
  environ (report_unhandled e w) = environ w ∧
  ports (report_unhandled e w) = ports w ∧
  events (report_unhandled e w) = events w.
Proof. unfold report_unhandled. by destruct (isinstance e "SystemExit"). Qed.

End Runtime.

(* ===================================================================== *)
(** * Confinement of the runtime's building blocks                        *)
(* ===================================================================== *)

Section Confinement.

Context {A : Type}.
Implicit Types (m body : Code A) (w : World).

Lemma confined_ret (a : A) : confined (ret a).
Proof. split; [by intros w | by intros w1 w2 H]. Qed.

Lemma confined_call fn body : confined body → confined (call fn body).
Proof.
  intros [Hw Hr]. split.
  - intros w. unfold call. by rewrite Hw.
  - intros w1 w2 H. unfold call. apply Hr.
    unfold stdout_stream in *. simpl. done.
Qed.

Lemma confined_try_except body cls (handler : BaseException → Code A) :
  confined body → (∀ e, confined (handler e)) →
  confined (try_except body cls handler).
Proof.
  intros [Hw Hr] Hh. split.
  - intros w. unfold try_except. specialize (Hw w).
    destruct (body w) as [[a|e] w']; simpl in *; [done|].
    destruct (isinstance e cls); simpl; [|done].
    destruct (Hh e) as [Hhw _]. by rewrite Hhw.
  - intros w1 w2 H. unfold try_except. specialize (Hr w1 w2 H).
    destruct (body w1) as [[a1|e1] w1'], (body w2) as [[a2|e2] w2'];
      simpl in *; destruct Hr as [Hc Hs]; try done.
    injection Hc as ->.
    destruct (isinstance e2 cls); simpl; [|done].
    destruct (Hh e2) as [_ Hhr]. by apply Hhr.
Qed.

End Confinement.

Lemma confined_print s : confined (print s).
Proof.
  split.
  - intros w. unfold print. by destruct (write_fault 0 w).
  - intros w1 w2 H. unfold print.
    rewrite (write_fault_stream 0 w1 w2 H).
    unfold stdout_stream in *. injection H as H1 H2.
    destruct (write_fault 0 w2); simpl; by rewrite H1, H2.
Qed.

Create HintDb confined.
#[export] Hint Resolve confined_ret confined_call confined_try_except
  confined_print : confined.

(* ===================================================================== *)
(** * The entry routine, case by case                                     *)
(* ===================================================================== *)

Section Main.

Implicit Types (w : World) (e : BaseException) (f : Fault).

(** The first [print] delivers its line. *)
Lemma main_greets w :
  write_outcome 0 w = None →
  main w = (Normal tt, deliver greeting_line (log (EvCall "main") w)).
Proof.
  intros H. unfold main, call, try_except.
  by rewrite print_accepted.
Qed.

(** The first [print] raises something [except Exception] lets through. *)
Lemma main_lets_through w f :
  write_fault 0 w = Some f → isinstance (fault_exc f) "Exception" = false →
  main w = (Raised (fault_exc f),
            refuse (sent f "Hello, World!") greeting_line (fault_exc f)
              (log (EvCall "main") w)).
Proof.
  intros H Hi. unfold main, call, try_except.
  rewrite (print_failed _ _ f) by done. by rewrite Hi.
Qed.

(** The first [print] raises an [Exception]; the handler's [print]
    delivers its line. *)
Lemma main_handles w f :
  write_fault 0 w = Some f → isinstance (fault_exc f) "Exception" = true →
  write_fault 1 w = None →
  main w = (Normal tt,
            deliver (diagnostic (fault_exc f) +:+ LF)
              (refuse (sent f "Hello, World!") greeting_line (fault_exc f)
                 (log (EvCall "main") w))).
Proof.
  intros H Hi H1. unfold main, call, try_except.
  rewrite (print_failed _ _ f) by done. rewrite Hi.
  rewrite print_accepted; [done|].
  apply write_outcome_None. by rewrite write_fault_refuse.
Qed.

(** The first [print] raises an [Exception]; the handler's [print]
    raises too. *)
Lemma main_handler_raises w f f' :
  write_fault 0 w = Some f → isinstance (fault_exc f) "Exception" = true →
  write_fault 1 w = Some f' →
  main w = (Raised (fault_exc f'),
            refuse (sent f' (diagnostic (fault_exc f)))
              (diagnostic (fault_exc f) +:+ LF) (fault_exc f')
              (refuse (sent f "Hello, World!") greeting_line (fault_exc f)
                 (log (EvCall "main") w))).
Proof.
  intros H Hi H1. unfold main, call, try_except.
  rewrite (print_failed _ _ f) by done. rewrite Hi.
  rewrite (print_failed _ _ f'); [done|].
  by rewrite write_fault_refuse.
Qed.

Lemma confined_main : confined main.
Proof. unfold main. auto with confined. Qed.

Lemma confined_hello name : confined (hello name).
Proof.
  unfold hello. destruct (String.eqb name "__main__");
    auto using confined_main with confined.
Qed.

End Main.

(** Splits on the four paths through [main] and rewrites [main w] to the
    completion and world of each. *)
Ltac main_cases w :=
  let f0 := fresh "f0" in let f1 := fresh "f1" in
  let H0 := fresh "H0" in let Hi := fresh "Hi" in let H1 := fresh "H1" in
  let Ho0 := fresh "Ho0" in let Ho1 := fresh "Ho1" in
  destruct (write_fault 0 w) as [f0|] eqn:H0;
  [ pose proof (write_outcome_fault 0 w f0 H0) as Ho0;
    destruct (isinstance (fault_exc f0) "Exception") eqn:Hi;
    [ destruct (write_fault 1 w) as [f1|] eqn:H1;
      [ pose proof (write_outcome_fault 1 w f1 H1) as Ho1;
        rewrite (main_handler_raises w f0 f1 H0 Hi H1) in *
      | pose proof (proj2 (write_outcome_None 1 w) H1) as Ho1;
        rewrite (main_handles w f0 H0 Hi H1) in * ]
    | rewrite (main_lets_through w f0 H0 Hi) in * ]
  | pose proof (proj2 (write_outcome_None 0 w) H0) as Ho0;
    rewrite (main_greets w Ho0) in * ];
  rewrite ?Ho0, ?Ho1 in *.

Section MainFacts.

Implicit Types (w : World) (e : BaseException).

(** Every call of [main] is logged, so a log that did not grow shows
    that [main] did not run. *)
Lemma main_is_logged w :
  ∃ evs, events (main w).2 = events w ++ EvCall "main" :: evs.
Proof.
  main_cases w; simpl; eexists; by rewrite <- !app_assoc.
Qed.

(** An exception leaves [main] only after a first [print] that raised. *)
Lemma main_raised_inv w e :
  (main w).1 = Raised e → ∃ e0, write_outcome 0 w = Some e0.
Proof. main_cases w; simpl; intros H; by eauto. Qed.

End MainFacts.

(* ===================================================================== *)
(** * The process                                                         *)
(* ===================================================================== *)

Section Process.

Implicit Types (v w : World) (e : BaseException).

(** Run as a program, the module body is a call of [main]. *)
Lemma run_hello_unfold w :
  run_hello w =
  match main w with
  | (Normal _, w') => (0, w')
  | (Raised e, w') => (exit_status_of e, report_unhandled e w')
  end.
Proof. reflexivity. Qed.

Lemma run_hello_accepted w :
  write_outcome 0 w = None →
  run_hello w = (0, deliver greeting_line (log (EvCall "main") w)).
Proof. intros H. by rewrite run_hello_unfold, main_greets. Qed.

(** The status and the text on standard output depend on the
    standard-output stream only. *)
Lemma run_hello_reads_only_stdout v w :
  stdout_stream v = stdout_stream w →
  (run_hello v).1 = (run_hello w).1 ∧
  stdout (run_hello v).2 = stdout (run_hello w).2.
Proof.
  intros H. rewrite !run_hello_unfold.
  destruct confined_main as [_ Hr]. destruct (Hr v w H) as [Hc Hs].
  destruct (main v) as [[[]|e1] v'], (main w) as [[[]|e2] w'];
    simpl in *; try done.
  - by injection Hs.
  - injection Hc as ->. split; [done|].
    destruct (report_unhandled_outside e2 v') as (_ & -> & _).
    destruct (report_unhandled_outside e2 w') as (_ & -> & _).
    by injection Hs.
Qed.

(** So does what reaches standard error. *)
Lemma run_hello_stderr_agree v w :
  stdout_stream v = stdout_stream w → stderr v = stderr w →
  stderr (run_hello v).2 = stderr (run_hello w).2.
Proof.
  intros H He. rewrite !run_hello_unfold.
  destruct confined_main as [Hw Hr]. destruct (Hr v w H) as [Hc _].
  pose proof (Hw v) as Hv. pose proof (Hw w) as Hw'.
  unfold outside_stdout in Hv, Hw'.
  destruct (main v) as [[[]|e1] v'], (main w) as [[[]|e2] w'];
    simpl in *; try done.
  - injection Hv as _ -> _. injection Hw' as _ -> _. done.
  - injection Hc as ->. injection Hv as _ Hv _. injection Hw' as _ Hw' _.
    unfold report_unhandled. destruct (isinstance e2 "SystemExit"); simpl;
      by rewrite Hv, Hw', He.
Qed.

(** Arguments, files, environment and ports are as they were. *)
Lemma run_hello_outside w :
  args (run_hello w).2 = args w ∧ files (run_hello w).2 = files w ∧
  environ (run_hello w).2 = environ w ∧ ports (run_hello w).2 = ports w.
Proof.
  rewrite run_hello_unfold.
  destruct confined_main as [Hw _]. specialize (Hw w).
  unfold outside_stdout in Hw.
  destruct (main w) as [[[]|e] w']; simpl in *.
  - by injection Hw as -> _ -> -> ->.
  - destruct (report_unhandled_outside e w') as (-> & _ & -> & -> & -> & _).
    by injection Hw as -> _ -> -> ->.
Qed.

(** A [SystemExit] raised by the write passes the handler and ends the
    process with its own code, without a report. *)
Example run_hello_exiting :
  (run_hello exiting).1 = 3 ∧ stdout (run_hello exiting).2 = "" ∧
  stderr (run_hello exiting).2 = "".
Proof. by vm_compute. Qed.

(** On the full device both lines are refused: the second exception
    ends the process with status 1 and a report on standard error. *)
Example run_hello_disk_full :
  (run_hello disk_full).1 = 1 ∧ stdout (run_hello disk_full).2 = "" ∧
  stderr (run_hello disk_full).2 ≠ "".
Proof. by vm_compute. Qed.

(** Under the file size limit the text of the greeting reaches standard
    output although both calls of [print] raise. *)
Example run_hello_file_limit :
  (run_hello file_limit).1 = 1 ∧
  stdout (run_hello file_limit).2 = "Hello, World!".
Proof. by vm_compute. Qed.

(** When only the greeting's terminator is lost, its text and the
    diagnostic share a line. *)
Example run_hello_terminator_lost :
  (run_hello terminator_lost).1 = 0 ∧
  stdout (run_hello terminator_lost).2 =
    "Hello, World!An unexpected error occurred while printing: " +:+
    "[Errno 32] Broken pipe" +:+ LF.
Proof. by vm_compute. Qed.

End Process.

(* ===================================================================== *)
(** * Strings and logs                                                    *)
(* ===================================================================== *)

Section Strings.

Implicit Types (s t : string).

Lemma append_cons a s t : String a s +:+ t = String a (s +:+ t).
Proof. reflexivity. Qed.

Lemma append_nil_r s : s +:+ "" = s.
Proof. induction s as [|a s IH]; [done|]. by rewrite append_cons, IH. Qed.

Lemma append_assoc s t u : (s +:+ t) +:+ u = s +:+ t +:+ u.
Proof.
  induction s as [|a s IH]; [done|].
  rewrite !append_cons. by rewrite IH.
Qed.

(** What a failing [print] has delivered is a leading part of its
    text. *)
Lemma sent_prefix f s : String.prefix (sent f s) s = true.
Proof.
  unfold sent. generalize (fault_after f). intros k. revert k.
  induction s as [|a s IH]; intros [|k]; simpl; try done.
  destruct (Ascii.ascii_dec a a); [apply IH|done].
Qed.




End Strings.

Section Log.

Implicit Types (w : World) (l evs : list Event).

Lemma new_events_app w w' evs :
  events w' = events w ++ evs → new_events w w' = evs.
Proof. intros H. unfold new_events. by rewrite H, drop_app_length. Qed.

Lemma new_events_same w : new_events w w = [].
Proof. unfold new_events. by rewrite drop_all. Qed.

End Log.

(* ===================================================================== *)
(** * The specification, claim by claim                                   *)
(* ===================================================================== *)

(** C1 (as amended).  A run with no command-line arguments in which the
    write of the greeting is accepted adds exactly [Hello, World!] and
    one line terminator to standard output and ends with status zero. *)
Theorem run_hello_greets (w : World) :
  args w = [] → write_outcome 0 w = None →
  stdout (run_hello w).2 = stdout w +:+ "Hello, World!" +:+ LF ∧
  (run_hello w).1 = 0.
Proof. intros _ H. by rewrite run_hello_accepted. Qed.

Lemma run_hello_greets_witness :
  args quiet = [] ∧ write_outcome 0 quiet = None ∧
  stdout (run_hello quiet).2 = "Hello, World!" +:+ LF ∧
  (run_hello quiet).1 = 0.
Proof.
  split; [reflexivity|]. split; [reflexivity|].
  apply (run_hello_greets quiet); reflexivity.
Defined.

(** C1 as stated fails: with no arguments but standard output on a full
    device, nothing reaches standard output and the status is 1. *)
Lemma run_hello_greets_not_always :
  args disk_full = [] ∧
  stdout (run_hello disk_full).2 ≠ stdout disk_full +:+ "Hello, World!" +:+ LF ∧
  (run_hello disk_full).1 ≠ 0.
Proof. by vm_compute. Qed.

(** C2.  Command-line arguments are ignored: a run with any arguments
    and the run with none, on the same platform, end with the same
    status and leave the same text on standard output (and on standard
    error). *)
Theorem run_hello_ignores_args (w : World) (a : list string) :
  (run_hello (with_args a w)).1 = (run_hello (with_args [] w)).1 ∧
  stdout (run_hello (with_args a w)).2 = stdout (run_hello (with_args [] w)).2 ∧
  stderr (run_hello (with_args a w)).2 = stderr (run_hello (with_args [] w)).2.
Proof.
  destruct (run_hello_reads_only_stdout (with_args a w) (with_args [] w))
    as [Hs Ho]; [done|].
  split; [done|]. split; [done|].
  by apply run_hello_stderr_agree.
Qed.

(** C3 (as amended).  If the write of the greeting raises an instance of
    [Exception] and the write of the diagnostic is accepted, standard
    output receives, after whatever leading part of the greeting's text
    had been delivered, "An unexpected error occurred while printing: "
    followed by the description of the failure and a line terminator;
    [main] returns normally and the status is zero. *)
Theorem main_reports_failure (w : World) (e : BaseException) :
  write_outcome 0 w = Some e → isinstance e "Exception" = true →
  write_outcome 1 w = None →
  (main w).1 = Normal tt ∧
  (∃ part, String.prefix part "Hello, World!" = true ∧
     stdout (run_hello w).2 =
       stdout w +:+ part +:+
       ("An unexpected error occurred while printing: " +:+ exc_str e) +:+
       LF) ∧
  (run_hello w).1 = 0.
Proof.
  intros H0 Hi H1. rewrite run_hello_unfold.
  main_cases w; simpl; try congruence.
  injection H0 as <-.
  split; [done|]. split; [|done].
  exists (sent f0 "Hello, World!").
    split; [exact (sent_prefix f0 "Hello, World!")|].
  by rewrite append_assoc.
Qed.

Lemma main_reports_failure_witness :
  write_outcome 0 terminator_lost = Some epipe ∧
  isinstance epipe "Exception" = true ∧
  write_outcome 1 terminator_lost = None ∧
  (main terminator_lost).1 = Normal tt ∧
  (∃ part, String.prefix part "Hello, World!" = true ∧
     stdout (run_hello terminator_lost).2 =
       stdout terminator_lost +:+ part +:+
       ("An unexpected error occurred while printing: " +:+ exc_str epipe) +:+
       LF) ∧
  (run_hello terminator_lost).1 = 0.
Proof.
  split; [reflexivity|]. split; [reflexivity|]. split; [reflexivity|].
  apply (main_reports_failure terminator_lost epipe); reflexivity.
Defined.

(** C3 as stated fails: on the full device the write of the greeting
    raises, yet no diagnostic reaches standard output and the exception
    raised by the handler's own write ends the process with status 1. *)
Lemma main_reports_failure_not_always :
  write_outcome 0 disk_full = Some enospc ∧
  stdout (run_hello disk_full).2 ≠
    stdout disk_full +:+
    ("An unexpected error occurred while printing: " +:+ exc_str enospc) +:+ LF ∧
  (main disk_full).1 ≠ Normal tt ∧
  (run_hello disk_full).1 ≠ 0.
Proof. by vm_compute. Qed.

(** C4.  The exit status is zero whenever the write of the greeting is
    accepted, and a non-zero status implies that this write was
    refused. *)
Theorem exit_status_nonzero_only_on_write_failure (w : World) :
  (write_outcome 0 w = None → (run_hello w).1 = 0) ∧
  ((run_hello w).1 ≠ 0 → ∃ e, write_outcome 0 w = Some e).
Proof.
  split.
  - intros H. by rewrite run_hello_accepted.
  - intros Hs. destruct (write_outcome 0 w) as [e|] eqn:H0; [by eauto|].
    by rewrite run_hello_accepted in Hs.
Qed.

Lemma exit_status_nonzero_only_on_write_failure_witness :
  (run_hello quiet).1 = 0 ∧ ∃ e, write_outcome 0 disk_full = Some e.
Proof.
  split.
  - apply (proj1 (exit_status_nonzero_only_on_write_failure quiet)).
    reflexivity.
  - apply (proj2 (exit_status_nonzero_only_on_write_failure disk_full)).
    vm_compute. discriminate.
Defined.

(** C5.  Imported under any name other than ["__main__"], the module
    completes normally without calling [main] (the log does not grow,
    while every call of [main] is logged, see [main_is_logged]) and adds
    nothing to standard output or to standard error. *)
Theorem import_is_silent (name : string) (w : World) :
  name ≠ "__main__" →
  (hello name w).1 = Normal tt ∧
  events (hello name w).2 = events w ∧
  stdout (hello name w).2 = stdout w ∧
  stderr (hello name w).2 = stderr w.
Proof.
  intros Hn. unfold hello.
  by destruct (String.eqb_spec name "__main__").
Qed.

Lemma import_is_silent_witness :
  "hello" ≠ "__main__" ∧
  (import_hello busy).1 = Normal tt ∧
  events (import_hello busy).2 = events busy ∧
  stdout (import_hello busy).2 = stdout busy ∧
  stderr (import_hello busy).2 = stderr busy.
Proof.
  split; [discriminate|].
  apply (import_is_silent "hello" busy). discriminate.
Defined.

(** C6.  In a run where the write of the greeting is accepted, nothing
    is added to standard error. *)
Theorem run_hello_stderr_untouched (w : World) :
  write_outcome 0 w = None → stderr (run_hello w).2 = stderr w.
Proof. intros H. by rewrite run_hello_accepted. Qed.

Lemma run_hello_stderr_untouched_witness :
  write_outcome 0 busy = None ∧ stderr (run_hello busy).2 = stderr busy.
Proof.
  split; [reflexivity|].
  apply (run_hello_stderr_untouched busy). reflexivity.
Defined.

(** C7 (as amended).  In every run the script writes to standard output
    only: arguments, files, environment variables and network ports are
    left as they were, and neither the status nor the text on standard
    output depends on them; [main] itself never writes to standard
    error.  When the write of the greeting is accepted the run consists
    of the call of [main] and one write, and standard error is left as
    it was.  When a write fails, the interpreter may add a report to
    standard error; what standard error held before is kept. *)
Theorem run_hello_effects (w : World) :
  (args (run_hello w).2 = args w ∧ files (run_hello w).2 = files w ∧
   environ (run_hello w).2 = environ w ∧ ports (run_hello w).2 = ports w) ∧
  (∀ v, stdout_stream v = stdout_stream w →
        (run_hello v).1 = (run_hello w).1 ∧
        stdout (run_hello v).2 = stdout (run_hello w).2) ∧
  stderr (main w).2 = stderr w ∧
  (write_outcome 0 w = None →
     events (run_hello w).2 =
       events w ++ [EvCall "main"; EvWrite ("Hello, World!" +:+ LF)] ∧
     stderr (run_hello w).2 = stderr w) ∧
  (∃ report, stderr (run_hello w).2 = stderr w +:+ report).
Proof.
  split; [apply run_hello_outside|].
  split; [intros v; apply run_hello_reads_only_stdout|].
  destruct confined_main as [Hw _]. specialize (Hw w).
  unfold outside_stdout in Hw.
  split; [by injection Hw|].
  split.
  { intros H. rewrite run_hello_accepted by done. simpl.
    by rewrite <- app_assoc. }
  rewrite run_hello_unfold.
  destruct (main w) as [[[]|e] w']; simpl in *; injection Hw as _ Hw _.
  - exists "". rewrite Hw. symmetry. apply append_nil_r.
  - unfold report_unhandled. destruct (isinstance e "SystemExit"); simpl.
    + exists "". rewrite Hw. symmetry. apply append_nil_r.
    + exists (traceback e). by rewrite Hw.
Qed.

Lemma run_hello_effects_witness :
  write_outcome 0 busy = None ∧
  files (run_hello busy).2 = {["/etc/motd" := "welcome"]} ∧
  events (run_hello busy).2 =
    [EvCall "main"; EvWrite ("Hello, World!" +:+ LF)] ∧
  stderr (run_hello busy).2 = "".
Proof.
  destruct (run_hello_effects busy) as ((_ & Hf & _) & _ & _ & Hacc & _).
  split; [reflexivity|]. split; [exact Hf|].
  apply Hacc; reflexivity.
Defined.

(** C7 as stated fails: on the full device the handler's write raises,
    the exception leaves [main], and the interpreter's report of it is
    added to standard error. *)
Lemma run_hello_stderr_changes :
  stderr (run_hello disk_full).2 ≠ stderr disk_full.
Proof. by vm_compute. Qed.

(** C8.  The run is determined by the standard-output stream: two runs
    that start with the same text on standard output and meet the same
    answers to their writes (in particular two runs whose write of the
    greeting is accepted) end with the same status and leave the same
    text on standard output, whatever else differs between them. *)
Theorem run_hello_deterministic (w1 w2 : World) :
  stdout w1 = stdout w2 →
  stdout_faults w1 = stdout_faults w2 ∨
    (write_outcome 0 w1 = None ∧ write_outcome 0 w2 = None) →
  (run_hello w1).1 = (run_hello w2).1 ∧
  stdout (run_hello w1).2 = stdout (run_hello w2).2.
Proof.
  intros Ho [Hf|[H1 H2]].
  - apply run_hello_reads_only_stdout. unfold stdout_stream. by rewrite Ho, Hf.
  - rewrite !run_hello_accepted by done. simpl. by rewrite Ho.
Qed.

Lemma run_hello_deterministic_witness :
  stdout quiet = stdout busy ∧
  (stdout_faults quiet = stdout_faults busy ∨
     (write_outcome 0 quiet = None ∧ write_outcome 0 busy = None)) ∧
  (run_hello quiet).1 = (run_hello busy).1 ∧
  stdout (run_hello quiet).2 = stdout (run_hello busy).2.
Proof.
  split; [reflexivity|]. split; [left; reflexivity|].
  apply (run_hello_deterministic quiet busy); [reflexivity|].
  left; reflexivity.
Defined.





(* ===================================================================== *)
(** * Further properties of [main] and of the guard                       *)
(* ===================================================================== *)


(** X2.  [main] does not retry.  It attempts the write of the greeting
    once, and one more write (the diagnostic) exactly when the first one
    raised an instance of [Exception]; each attempt uses up one answer
    of the platform. *)
Theorem main_write_attempts (w : World) :
  attempts (new_events w (main w).2) = (if handler_runs w then 2 else 1)%nat ∧
  stdout_faults (main w).2 =
    drop (if handler_runs w then 2 else 1) (stdout_faults w).
Proof.
  unfold handler_runs.
  main_cases w; simpl; rewrite ?Hi;
    (split;
     [ erewrite new_events_app; [|simpl; by rewrite <- !app_assoc]; done
     | by destruct (stdout_faults w) as [|? [|? ?]] ]).
Qed.

(** X3.  An exception [main] raises is one a write raised: either the
    write of the greeting raised it and it is not an instance of
    [Exception], or that write raised an instance of [Exception] and the
    handler's write raised it. *)
Theorem main_raised_cases (w : World) (e : BaseException) :
  (main w).1 = Raised e →
  (write_outcome 0 w = Some e ∧ isinstance e "Exception" = false) ∨
  (∃ e0, write_outcome 0 w = Some e0 ∧ isinstance e0 "Exception" = true ∧
         write_outcome 1 w = Some e).
Proof.
  main_cases w; simpl; intros [= <-].
  - right. by exists (fault_exc f0).
  - by left.
Qed.

Lemma main_raised_cases_witness :
  (main interrupted).1 = Raised KeyboardInterrupt ∧
  ((write_outcome 0 interrupted = Some KeyboardInterrupt ∧
    isinstance KeyboardInterrupt "Exception" = false) ∨
   (∃ e0, write_outcome 0 interrupted = Some e0 ∧
          isinstance e0 "Exception" = true ∧
          write_outcome 1 interrupted = Some KeyboardInterrupt)).
Proof.
  split; [reflexivity|].
  apply (main_raised_cases interrupted KeyboardInterrupt). reflexivity.
Defined.


(** X5.  The guard is exact: executing the module calls [main] once when
    its name is ["__main__"], and not at all under any other name. *)
Theorem main_called_iff_main_program (name : string) (w : World) :
  calls_of "main" (new_events w (hello name w).2) =
  if decide (name = "__main__") then 1%nat else 0%nat.
Proof.
  unfold hello.
  destruct (String.eqb_spec name "__main__") as [->|Hn].
  - rewrite decide_True by done.
    main_cases w; simpl;
      (erewrite new_events_app; [|simpl; by rewrite <- !app_assoc]; done).
  - rewrite decide_False by done. simpl. by rewrite new_events_same.
Qed.

